(** * click_element.js: locate an element and click it, with a fallback lookup

    A shallow embedding of [webtraversallibrary/js/click_element.js].  The
    script is the body of a function that the controller injects into a page:
    it reads its inputs from the ambient [arguments] object, asks the page for
    an element ([document.querySelector], then [findElementByWtlUid] of
    dom.js), clicks it ([clickElement] of dom.js) and reports failures on the
    console.

    The script is embedded as a tree of calls into the page ([script]); an
    interpreter ([run]) answers each call from a [Host] and records it, so the
    sequence of lookups, clicks and console messages of an invocation is read
    off the record rather than written into the model by hand. *)

From Stdlib Require Import List String Ascii Bool Arith Lia.
Import ListNotations.
Local Open Scope string_scope.
Local Open Scope list_scope.
Local Open Scope nat_scope.

Set Warnings "-register-all".

(** ** JavaScript values reaching the script *)

Module JS.

(** The values the controller marshals into [arguments] (strings, and [null]
    for a missing Python value), plus [undefined], which reading past the end
    of [arguments] yields. *)
Inductive value : Type :=
| VUndefined
| VNull
| VBool (b : bool)
| VStr (s : string).

(** [a === b] on these values. *)
Definition strict_equals (a b : value) : bool :=
  match a, b with
  | VUndefined, VUndefined => true
  | VNull, VNull => true
  | VBool x, VBool y => Bool.eqb x y
  | VStr x, VStr y => String.eqb x y
  | _, _ => false
  end.

(** The string conversion applied to the argument of a DOM method. *)
Definition ToString (v : value) : string :=
  match v with
  | VUndefined => "undefined"
  | VNull => "null"
  | VBool true => "true"
  | VBool false => "false"
  | VStr s => s
  end.

(** [arguments[i]]: an index past the end reads as [undefined]. *)
Definition arguments_get (arguments : list value) (i : nat) : value :=
  nth i arguments VUndefined.

(** Exceptions a call into the page can raise. *)
Inductive exn : Type :=
| SyntaxError (selector : string).

(** What a call into the page gives back. *)
Inductive reply (X : Type) : Type :=
| Returned (x : X)
| Thrown (e : exn).

(** How the function body completes: by running off its end, by a
    [return;] statement, or by an uncaught exception. *)
Inductive completion : Type :=
| Normal
| Return
| Throw (e : exn).

Definition returns_normally (c : completion) : bool :=
  match c with
  | Normal | Return => true
  | Throw _ => false
  end.

End JS.

Arguments JS.Returned {X} x.
Arguments JS.Thrown {X} e.

Export JS.

(** ** The document *)

Module Dom.

(** A node of the document's element tree. *)
Inductive node : Type :=
| Elem (tag : string) (attrs : list (string * string)) (children : list node).

Definition document : Type := node.

(** An element handle: the path of child indices from the root. *)
Definition element : Type := list nat.

Definition children (n : node) : list node :=
  match n with Elem _ _ cs => cs end.

Definition tag (n : node) : string :=
  match n with Elem t _ _ => t end.

Fixpoint assoc (k : string) (l : list (string * string)) : option string :=
  match l with
  | [] => None
  | (k', v) :: l' => if String.eqb k k' then Some v else assoc k l'
  end.

(** [getAttribute]. *)
Definition attribute (n : node) (name : string) : option string :=
  match n with Elem _ attrs _ => assoc name attrs end.

(** The node a handle points to. *)
Fixpoint node_at (n : node) (p : element) : option node :=
  match p with
  | [] => Some n
  | i :: p' =>
      match nth_error (children n) i with
      | Some c => node_at c p'
      | None => None
      end
  end.

(** The handles below the children [l], the first of which has index [i],
    given the handles [sub c] inside each child [c]. *)
Definition below (sub : node -> list element) : nat -> list node -> list element :=
  fix go (i : nat) (l : list node) : list element :=
    match l with
    | [] => []
    | c :: l' => map (cons i) (sub c) ++ go (S i) l'
    end.

(** All elements of the document in document (tree, pre-) order. *)
Fixpoint elements (n : node) : list element :=
  match n with
  | Elem _ _ cs => [] :: below elements 0 cs
  end.

(** Induction on a node with the property known for all its children. *)
Fixpoint node_children_ind (P : node -> Prop)
    (step : forall t attrs cs, Forall P cs -> P (Elem t attrs cs))
    (n : node) : P n :=
  match n with
  | Elem t attrs cs =>
      step t attrs cs
        ((fix all (l : list node) : Forall P l :=
            match l with
            | [] => Forall_nil P
            | c :: l' => Forall_cons c (node_children_ind P step c) (all l')
            end) cs)
  end.

Definition has_attribute (name val : string) (d : document) (e : element) : bool :=
  match node_at d e with
  | Some n =>
      match attribute n name with
      | Some v => String.eqb v val
      | None => false
      end
  | None => false
  end.

Definition has_tag (t : string) (d : document) (e : element) : bool :=
  match node_at d e with
  | Some n => String.eqb (tag n) t
  | None => false
  end.

End Dom.

Export Dom.

(** ** The page the script runs in *)

(** The collaborators of the script.  [parse_selector] is the page's selector
    engine: [None] for a string that is not a selector, otherwise the
    predicate telling which elements of a document match.
    [findElementByWtlUid] and [clickElement] are the helpers of dom.js, which
    the script requires and does not define: the lookup answers an element
    or [null], which is what the script tests its answer against, and reads
    the document only; a click may change the document (handlers run). *)
Record Host : Type := {
  parse_selector : string -> option (document -> element -> bool);
  findElementByWtlUid : document -> value -> option element;
  clickElement : element -> document -> document
}.

(** Modelled from the spec: the DOM query dependency, "first element matching
    a structural query" against the live document.  It is the browser's
    [document.querySelector], not code of the repository: the first match in
    document order, [null] when nothing matches, a [SyntaxError] when the
    string is not a selector. *)
Definition querySelector (h : Host) (d : document) (selector : value)
  : reply (option element) :=
  match parse_selector h (ToString selector) with
  | None => Thrown (SyntaxError (ToString selector))
  | Some matches => Returned (find (matches d) (elements d))
  end.

(** ** Scripts: trees of calls into the page *)

Inductive level : Type := Error | Log.

(** The calls the script makes, indexed by the type of their answer. *)
Inductive op : Type -> Type :=
| DocumentQuerySelector (selector : value) : op (option element)
| FindElementByWtlUid (wtlUid : value) : op (option element)
| ClickElement (e : element) : op unit
| Console (l : level) (msg : string) (v : value) : op unit.

Inductive script (A : Type) : Type :=
| Done (a : A)
| ReturnStmt
| Call {X : Type} (o : op X) (k : X -> script A).

Arguments Done {A} a.
Arguments ReturnStmt {A}.
Arguments Call {A X} o k.

Fixpoint bind {A B : Type} (m : script A) (f : A -> script B) : script B :=
  match m with
  | Done a => f a
  | ReturnStmt => ReturnStmt
  | Call o k => Call o (fun x => bind (k x) f)
  end.

Definition call {X : Type} (o : op X) : script X := Call o Done.

(** [if (c) { m }] with no else branch. *)
Definition when (c : bool) (m : script unit) : script unit :=
  if c then m else Done tt.

Declare Scope script_scope.
Delimit Scope script_scope with script.
Notation "x <- m ;; k" := (bind m (fun x => k))
  (at level 61, m at next level, right associativity) : script_scope.
Notation "m ;; k" := (bind m (fun _ => k))
  (at level 61, right associativity) : script_scope.
Local Open Scope script_scope.

Definition console_error (msg : string) (v : value) : script unit :=
  call (Console Error msg v).

Definition console_log (msg : string) (v : value) : script unit :=
  call (Console Log msg v).

(** ** The script *)

Definition msg_selector_not_found : string :=
  "click_element: Element not found with selector: ".
Definition msg_trying_wtl_uid : string :=
  "click_element: Trying to find element by wtl-uid: ".
Definition msg_wtl_uid_not_found : string :=
  "click_element: Element not found with wtl-uid: ".

(** [let wtlUid = null; if (arguments.length > 1) { wtlUid = arguments[1]; }] *)
Definition wtlUid_of (arguments : list value) : value :=
  if 1 <? List.length arguments then arguments_get arguments 1 else VNull.

(** The body of click_element.js, statement by statement. *)
Definition click_element (arguments : list value) : script unit :=
  let selector := arguments_get arguments 0 in
  let wtlUid := wtlUid_of arguments in
  element <- call (DocumentQuerySelector selector) ;;
  match element with
  | Some element => call (ClickElement element)
  | None =>
      console_error msg_selector_not_found selector ;;
      when (strict_equals wtlUid VNull) ReturnStmt ;;
      console_log msg_trying_wtl_uid wtlUid ;;
      element <- call (FindElementByWtlUid wtlUid) ;;
      match element with
      | Some element => call (ClickElement element)
      | None => console_error msg_wtl_uid_not_found wtlUid
      end
  end.

(** ** Running a script in a page *)

(** One entry of the record of an invocation: a call and its answer. *)
Inductive event : Type :=
| EvQuerySelector (selector : value) (r : reply (option element))
| EvFindElementByWtlUid (wtlUid : value) (r : option element)
| EvClick (e : element)
| EvConsole (l : level) (msg : string) (v : value).

(** Answering one call: the answer, the document afterwards, the entry. *)
Definition perform (h : Host) {X : Type} (o : op X) (d : document)
  : reply X * document * event :=
  match o in op X return reply X * document * event with
  | DocumentQuerySelector selector =>
      let r := querySelector h d selector in (r, d, EvQuerySelector selector r)
  | FindElementByWtlUid wtlUid =>
      let r := findElementByWtlUid h d wtlUid in
      (Returned r, d, EvFindElementByWtlUid wtlUid r)
  | ClickElement e => (Returned tt, clickElement h e d, EvClick e)
  | Console l msg v => (Returned tt, d, EvConsole l msg v)
  end.

Record outcome : Type := {
  result : completion;
  final_document : document;
  trace : list event
}.

(** There is no [try] in the script: an exception ends it where it is
    raised.  [return;] ends it as well. *)
Fixpoint run (h : Host) {A : Type} (m : script A) (d : document) : outcome :=
  match m with
  | Done _ => {| result := Normal; final_document := d; trace := [] |}
  | ReturnStmt => {| result := Return; final_document := d; trace := [] |}
  | Call o k =>
      match perform h o d with
      | (Returned x, d', ev) =>
          let o' := run h (k x) d' in
          {| result := result o';
             final_document := final_document o';
             trace := ev :: trace o' |}
      | (Thrown e, d', ev) =>
          {| result := Throw e; final_document := d'; trace := [ev] |}
      end
  end.

(** One invocation of the script on document [d] with the given arguments. *)
Definition exec (h : Host) (d : document) (arguments : list value) : outcome :=
  run h (click_element arguments) d.

(** ** Reading the record *)

Definition clicks (tr : list event) : list element :=
  flat_map (fun ev => match ev with EvClick e => [e] | _ => [] end) tr.

Definition diagnostics (tr : list event) : list (level * string * value) :=
  flat_map (fun ev => match ev with
                      | EvConsole l msg v => [(l, msg, v)]
                      | _ => []
                      end) tr.

Definition primary_lookups (tr : list event) : list (value * reply (option element)) :=
  flat_map (fun ev => match ev with
                      | EvQuerySelector s r => [(s, r)]
                      | _ => []
                      end) tr.

Definition fallback_lookups (tr : list event) : list (value * option element) :=
  flat_map (fun ev => match ev with
                      | EvFindElementByWtlUid u r => [(u, r)]
                      | _ => []
                      end) tr.

Definition fallback_attempted (tr : list event) : bool :=
  match fallback_lookups tr with
  | [] => false
  | _ :: _ => true
  end.

(** The primary lookup found an element. *)
Definition primary_found (tr : list event) : bool :=
  existsb (fun q => match snd q with
                    | Returned (Some _) => true
                    | _ => false
                    end) (primary_lookups tr).

(** The elements the lookups of an invocation resolved. *)
Definition resolved (tr : list event) : list element :=
  flat_map (fun ev => match ev with
                      | EvQuerySelector _ (Returned (Some e)) => [e]
                      | EvFindElementByWtlUid _ (Some e) => [e]
                      | _ => []
                      end) tr.

(** Each lookup in the record is the page's answer on document [d]. *)
Definition fresh_lookup (h : Host) (d : document) (ev : event) : Prop :=
  match ev with
  | EvQuerySelector s r => r = querySelector h d s
  | EvFindElementByWtlUid u r => r = findElementByWtlUid h d u
  | _ => True
  end.

(** The three diagnostics of the script. *)
Definition primary_lookup_failed (selector : value) : level * string * value :=
  (Error, msg_selector_not_found, selector).
Definition fallback_lookup_attempted (wtlUid : value) : level * string * value :=
  (Log, msg_trying_wtl_uid, wtlUid).
Definition fallback_lookup_failed (wtlUid : value) : level * string * value :=
  (Error, msg_wtl_uid_not_found, wtlUid).

(** A kind of diagnostic: its console level and its message, whatever the
    value printed after it. *)
Definition diagnostic_kind : Type := level * string.

Definition diagnostic_kinds : list diagnostic_kind :=
  [ (Error, msg_selector_not_found);
    (Log, msg_trying_wtl_uid);
    (Error, msg_wtl_uid_not_found) ].

(** Some invocation, in some page, emits a diagnostic of kind [k]. *)
Definition emits (k : diagnostic_kind) : Prop :=
  exists h d arguments v,
    In (fst k, snd k, v) (diagnostics (trace (exec h d arguments))).

(** A second argument was passed, whatever its value. *)
Definition second_argument_supplied (arguments : list value) : Prop :=
  1 < List.length arguments.

(** The set of diagnostic kinds the script can emit has [n] members. *)
Definition diagnostic_event_count (n : nat) : Prop :=
  exists ks : list diagnostic_kind,
    NoDup ks /\ List.length ks = n /\ forall k, In k ks <-> emits k.

(** The five ways an invocation can go, each with the outcome it leaves. *)
Inductive shape (h : Host) (d : document) (arguments : list value)
  : outcome -> Prop :=
| PrimaryThrows (e : exn) :
    querySelector h d (arguments_get arguments 0) = Thrown e ->
    shape h d arguments
      {| result := Throw e; final_document := d;
         trace := [EvQuerySelector (arguments_get arguments 0) (Thrown e)] |}
| PrimaryFound (el : element) :
    querySelector h d (arguments_get arguments 0) = Returned (Some el) ->
    shape h d arguments
      {| result := Normal; final_document := clickElement h el d;
         trace := [EvQuerySelector (arguments_get arguments 0) (Returned (Some el));
                   EvClick el] |}
| NoFallback :
    querySelector h d (arguments_get arguments 0) = Returned None ->
    wtlUid_of arguments = VNull ->
    shape h d arguments
      {| result := Return; final_document := d;
         trace := [EvQuerySelector (arguments_get arguments 0) (Returned None);
                   EvConsole Error msg_selector_not_found (arguments_get arguments 0)] |}
| FallbackFound (el : element) :
    querySelector h d (arguments_get arguments 0) = Returned None ->
    wtlUid_of arguments <> VNull ->
    findElementByWtlUid h d (wtlUid_of arguments) = Some el ->
    shape h d arguments
      {| result := Normal; final_document := clickElement h el d;
         trace := [EvQuerySelector (arguments_get arguments 0) (Returned None);
                   EvConsole Error msg_selector_not_found (arguments_get arguments 0);
                   EvConsole Log msg_trying_wtl_uid (wtlUid_of arguments);
                   EvFindElementByWtlUid (wtlUid_of arguments) (Some el);
                   EvClick el] |}
| FallbackMissing :
    querySelector h d (arguments_get arguments 0) = Returned None ->
    wtlUid_of arguments <> VNull ->
    findElementByWtlUid h d (wtlUid_of arguments) = None ->
    shape h d arguments
      {| result := Normal; final_document := d;
         trace := [EvQuerySelector (arguments_get arguments 0) (Returned None);
                   EvConsole Error msg_selector_not_found (arguments_get arguments 0);
                   EvConsole Log msg_trying_wtl_uid (wtlUid_of arguments);
                   EvFindElementByWtlUid (wtlUid_of arguments) None;
                   EvConsole Error msg_wtl_uid_not_found (wtlUid_of arguments)] |}.

(** The last entry of a record, if it has one. *)
Definition final_event (tr : list event) : option event :=
  last (map Some tr) None.

(** The diagnostics of the script in the order of its text, for an
    invocation with the given arguments. *)
Definition diagnostic_sequence (arguments : list value)
  : list (level * string * value) :=
  [ primary_lookup_failed (arguments_get arguments 0);
    fallback_lookup_attempted (wtlUid_of arguments);
    fallback_lookup_failed (wtlUid_of arguments) ].

(** ** A small page for concrete runs *)

Module Page.

(** A selector engine for two forms: [#x] matches the elements whose [id]
    is [x], a bare name matches the elements with that tag; the empty string
    and a lone [#] are not selectors. *)
Definition simple_selectors (s : string) : option (document -> element -> bool) :=
  match s with
  | EmptyString => None
  | String "#" EmptyString => None
  | String "#" name => Some (has_attribute "id" name)
  | _ => Some (has_tag s)
  end.

(** Modelled from the spec: the stable-identifier lookup dependency of
    dom.js, "scan elements carrying a stable-identifier attribute for one
    whose value equals secondaryLocator", first match in document order.
    The attribute is the [wtl-uid] the script's messages name. *)
Definition find_by_wtl_uid (d : document) (wtlUid : value) : option element :=
  find (has_attribute "wtl-uid" (ToString wtlUid) d) (elements d).

Fixpoint mark (p : element) (n : node) : node :=
  match n with
  | Elem t attrs cs =>
      match p with
      | [] => Elem t (("data-clicked", "true") :: attrs) cs
      | i :: p' =>
          Elem t attrs
               ((fix at_child (j : nat) (l : list node) : list node :=
                   match l with
                   | [] => []
                   | c :: l' =>
                       (if Nat.eqb j i then mark p' c else c) :: at_child (S j) l'
                   end) 0 cs)
      end
  end.

(** A page whose click handlers leave a mark on the clicked element. *)
Definition marking : Host :=
  {| parse_selector := simple_selectors;
     findElementByWtlUid := find_by_wtl_uid;
     clickElement := mark |}.

(** A page without click handlers. *)
Definition inert : Host :=
  {| parse_selector := simple_selectors;
     findElementByWtlUid := find_by_wtl_uid;
     clickElement := fun _ d => d |}.

(** <html><body><button id="foo"/><a wtl-uid="uid-42"/><button/></body></html> *)
Definition doc : document :=
  Elem "html" []
    [ Elem "body" []
        [ Elem "button" [("id", "foo")] [];
          Elem "a" [("wtl-uid", "uid-42")] [];
          Elem "button" [] [] ] ].

(** The same page before the snapshot tagged it, and with nothing to find
    under [#missing] or [uid-42]. *)
Definition bare : document :=
  Elem "html" [] [ Elem "body" [] [ Elem "button" [("id", "foo")] [] ] ].

End Page.

(** ** The document model *)

(** [elements] lists the handles of the document, each once: a path is
    listed exactly when it leads to a node. *)

Lemma below_In (sub : node -> list element) (l : list node) :
  forall (i : nat) (p : element),
    In p (below sub i l) <->
    exists j c p', p = (i + j) :: p' /\ nth_error l j = Some c /\ In p' (sub c).
Proof.
  induction l as [|a l IH]; intros i p; cbn.
  - split; [tauto|]. intros (j & c & p' & _ & Hn & _). now destruct j.
  - rewrite in_app_iff, in_map_iff, IH. split.
    + intros [(p' & <- & Hp') | (j & c & p' & -> & Hn & Hp')].
      * exists 0, a, p'. rewrite Nat.add_0_r. now repeat split.
      * exists (S j), c, p'. rewrite Nat.add_succ_r. now repeat split.
    + intros (j & c & p' & -> & Hn & Hp'). destruct j as [|j]; cbn in Hn.
      * injection Hn as <-. left. exists p'. now rewrite Nat.add_0_r.
      * right. exists j, c, p'. rewrite Nat.add_succ_r. now repeat split.
Qed.

Lemma below_NoDup (sub : node -> list element) (l : list node) :
  Forall (fun c => NoDup (sub c)) l -> forall i, NoDup (below sub i l).
Proof.
  induction 1 as [|a l Ha Hl IH]; intros i; cbn; [constructor|].
  apply NoDup_app.
  - apply NoDup_map_NoDup_ForallPairs; [|exact Ha].
    intros x y _ _ [= ->]. reflexivity.
  - apply IH.
  - intros p Hp Hq. apply in_map_iff in Hp as (p' & <- & _).
    apply below_In in Hq as (j & c & q & [= Hi _] & _). lia.
Qed.

Lemma elements_NoDup (d : document) : NoDup (elements d).
Proof.
  induction d as [t attrs cs IH] using node_children_ind. cbn.
  constructor; [|now apply below_NoDup].
  intros Hin. apply below_In in Hin as (j & c & p' & Hp & _). discriminate.
Qed.

Lemma elements_node_at (d : document) (p : element) :
  In p (elements d) <-> node_at d p <> None.
Proof.
  revert p. induction d as [t attrs cs IH] using node_children_ind.
  intros p. cbn. rewrite below_In. split.
  - intros [<- | (j & c & p' & -> & Hn & Hp')]; cbn; [discriminate|].
    rewrite Hn. rewrite Forall_forall in IH.
    apply (IH c (nth_error_In _ _ Hn)), Hp'.
  - destruct p as [|j p']; [now left|]. cbn.
    destruct (nth_error cs j) as [c|] eqn:Hn; [|congruence].
    intros Hp'. right. exists j, c, p'. repeat split; [assumption|].
    rewrite Forall_forall in IH.
    apply (IH c (nth_error_In _ _ Hn)), Hp'.
Qed.

Lemma two_matches_distinct (f : element -> bool) (d : document)
    (e1 e2 : element) (rest : list element) :
  filter f (elements d) = e1 :: e2 :: rest -> e1 <> e2.
Proof.
  intros Hm. pose proof (NoDup_filter f (elements_NoDup d)) as Hnd.
  rewrite Hm in Hnd. inversion Hnd as [|? ? Hnin _]; subst.
  intros ->. apply Hnin. now left.
Qed.

(** ** The shapes of an invocation *)

Section Invocation.

Variable h : Host.
Variable d : document.
Variable arguments : list value.

Let selector : value := arguments_get arguments 0.
Let wtlUid : value := wtlUid_of arguments.

Lemma exec_primary_throws (e : exn) :
  querySelector h d selector = Thrown e ->
  exec h d arguments =
    {| result := Throw e; final_document := d;
       trace := [EvQuerySelector selector (Thrown e)] |}.
Proof.
  intros Hq. unfold exec, click_element. cbn.
  fold selector. rewrite Hq. reflexivity.
Qed.

Lemma exec_primary_found (el : element) :
  querySelector h d selector = Returned (Some el) ->
  exec h d arguments =
    {| result := Normal; final_document := clickElement h el d;
       trace := [EvQuerySelector selector (Returned (Some el)); EvClick el] |}.
Proof.
  intros Hq. unfold exec, click_element. cbn.
  fold selector. rewrite Hq. reflexivity.
Qed.

Lemma exec_no_fallback :
  querySelector h d selector = Returned None ->
  wtlUid = VNull ->
  exec h d arguments =
    {| result := Return; final_document := d;
       trace := [EvQuerySelector selector (Returned None);
                 EvConsole Error msg_selector_not_found selector] |}.
Proof.
  intros Hq Hu. unfold exec, click_element. cbn.
  fold selector wtlUid. rewrite Hq, Hu. reflexivity.
Qed.

Lemma strict_equals_null (v : value) :
  strict_equals v VNull = true <-> v = VNull.
Proof. destruct v; cbn; split; congruence. Qed.

Lemma exec_fallback_found (el : element) :
  querySelector h d selector = Returned None ->
  wtlUid <> VNull ->
  findElementByWtlUid h d wtlUid = Some el ->
  exec h d arguments =
    {| result := Normal; final_document := clickElement h el d;
       trace := [EvQuerySelector selector (Returned None);
                 EvConsole Error msg_selector_not_found selector;
                 EvConsole Log msg_trying_wtl_uid wtlUid;
                 EvFindElementByWtlUid wtlUid (Some el);
                 EvClick el] |}.
Proof.
  intros Hq Hu Hf. unfold exec, click_element. cbn.
  fold selector wtlUid. rewrite Hq.
  destruct (strict_equals wtlUid VNull) eqn:E.
  - apply strict_equals_null in E. contradiction.
  - cbn. rewrite Hf. reflexivity.
Qed.

Lemma exec_fallback_missing :
  querySelector h d selector = Returned None ->
  wtlUid <> VNull ->
  findElementByWtlUid h d wtlUid = None ->
  exec h d arguments =
    {| result := Normal; final_document := d;
       trace := [EvQuerySelector selector (Returned None);
                 EvConsole Error msg_selector_not_found selector;
                 EvConsole Log msg_trying_wtl_uid wtlUid;
                 EvFindElementByWtlUid wtlUid None;
                 EvConsole Error msg_wtl_uid_not_found wtlUid] |}.
Proof.
  intros Hq Hu Hf. unfold exec, click_element. cbn.
  fold selector wtlUid. rewrite Hq.
  destruct (strict_equals wtlUid VNull) eqn:E.
  - apply strict_equals_null in E. contradiction.
  - cbn. rewrite Hf. reflexivity.
Qed.

End Invocation.

Lemma value_null_dec (v : value) : {v = VNull} + {v <> VNull}.
Proof. destruct v; (left; reflexivity) || (right; discriminate). Defined.

(** Every invocation has one of the five shapes. *)
Lemma exec_shape (h : Host) (d : document) (arguments : list value) :
  shape h d arguments (exec h d arguments).
Proof.
  destruct (querySelector h d (arguments_get arguments 0)) as [[el|]|e] eqn:Hq.
  - rewrite (exec_primary_found h d arguments el Hq). now constructor.
  - destruct (value_null_dec (wtlUid_of arguments)) as [Hu|Hu].
    + rewrite (exec_no_fallback h d arguments Hq Hu). now constructor.
    + destruct (findElementByWtlUid h d (wtlUid_of arguments)) as [el|] eqn:Hf.
      * rewrite (exec_fallback_found h d arguments el Hq Hu Hf). now constructor.
      * rewrite (exec_fallback_missing h d arguments Hq Hu Hf). now constructor.
  - rewrite (exec_primary_throws h d arguments e Hq). now constructor.
Qed.

(** ** Reading [arguments] *)

Lemma wtlUid_of_supplied (arguments : list value) (v : value) :
  nth_error arguments 1 = Some v -> wtlUid_of arguments = v.
Proof.
  destruct arguments as [|a [|b l]]; cbn; try discriminate.
  now intros [= ->].
Qed.

Lemma wtlUid_of_absent (arguments : list value) :
  nth_error arguments 1 = None -> wtlUid_of arguments = VNull.
Proof.
  destruct arguments as [|a [|b l]]; cbn; try reflexivity. discriminate.
Qed.

Lemma wtlUid_of_non_null (arguments : list value) :
  wtlUid_of arguments <> VNull <->
  exists v, nth_error arguments 1 = Some v /\ v <> VNull.
Proof.
  split.
  - intros Hu. destruct (nth_error arguments 1) as [v|] eqn:E.
    + exists v. split; [reflexivity|].
      now rewrite <- (wtlUid_of_supplied arguments v E).
    + now apply wtlUid_of_absent in E.
  - intros (v & E & Hv). now rewrite (wtlUid_of_supplied arguments v E).
Qed.

(** ** Lists: the first element passing a test *)

Lemma find_filter {A : Type} (f : A -> bool) (l : list A) :
  find f l = hd_error (filter f l).
Proof.
  induction l as [|x l IH]; cbn; [reflexivity|].
  destruct (f x); [reflexivity | exact IH].
Qed.

Lemma filter_head_first {A : Type} (f : A -> bool) (l : list A) (x : A) (r : list A) :
  filter f l = x :: r ->
  exists before after,
    l = before ++ x :: after /\
    forallb (fun y => negb (f y)) before = true /\
    f x = true.
Proof.
  induction l as [|y l IH]; cbn; [discriminate|].
  destruct (f y) eqn:Fy.
  - intros [= -> _]. exists [], l. now repeat split.
  - intros Hr. destruct (IH Hr) as (before & after & -> & Hb & Hx).
    exists (y :: before), after. cbn. rewrite Fy. now repeat split.
Qed.

(** ** The four outcomes of the two-tier resolution *)

(** C2, primary success.  When the primary lookup resolves an element, the
    invocation consists of that lookup and one click on the element it
    resolved: no diagnostic is emitted, no fallback lookup is made, and the
    script runs to its end. *)
Theorem primary_success (h : Host) (d : document) (arguments : list value)
    (el : element) :
  querySelector h d (arguments_get arguments 0) = Returned (Some el) ->
  trace (exec h d arguments) =
    [ EvQuerySelector (arguments_get arguments 0) (Returned (Some el));
      EvClick el ] /\
  clicks (trace (exec h d arguments)) = [el] /\
  diagnostics (trace (exec h d arguments)) = [] /\
  fallback_attempted (trace (exec h d arguments)) = false /\
  result (exec h d arguments) = Normal.
Proof.
  intros Hq. rewrite (exec_primary_found h d arguments el Hq).
  repeat split.
Qed.

Lemma primary_success_witness :
  querySelector Page.marking Page.doc (arguments_get [VStr "#foo"] 0)
    = Returned (Some [0; 0]) /\
  clicks (trace (exec Page.marking Page.doc [VStr "#foo"])) = [[0; 0]] /\
  diagnostics (trace (exec Page.marking Page.doc [VStr "#foo"])) = [].
Proof.
  split; [reflexivity|].
  pose proof (primary_success Page.marking Page.doc [VStr "#foo"] [0; 0] eq_refl)
    as (_ & Hc & Hd & _).
  exact (conj Hc Hd).
Defined.

(** C1, fallback success.  When the primary lookup finds nothing, a
    secondary locator (a string) was passed as second argument and the
    secondary lookup resolves an element, the invocation emits the
    primary-lookup-failed and then the fallback-attempted diagnostic, makes
    the secondary lookup, and then dispatches exactly one click, on the
    element that lookup resolved. *)
Theorem fallback_success (h : Host) (d : document) (arguments : list value)
    (uid : string) (el : element) :
  querySelector h d (arguments_get arguments 0) = Returned None ->
  nth_error arguments 1 = Some (VStr uid) ->
  findElementByWtlUid h d (VStr uid) = Some el ->
  trace (exec h d arguments) =
    [ EvQuerySelector (arguments_get arguments 0) (Returned None);
      EvConsole Error msg_selector_not_found (arguments_get arguments 0);
      EvConsole Log msg_trying_wtl_uid (VStr uid);
      EvFindElementByWtlUid (VStr uid) (Some el);
      EvClick el ] /\
  clicks (trace (exec h d arguments)) = [el] /\
  diagnostics (trace (exec h d arguments)) =
    [ primary_lookup_failed (arguments_get arguments 0);
      fallback_lookup_attempted (VStr uid) ] /\
  result (exec h d arguments) = Normal.
Proof.
  intros Hq Ha Hf.
  pose proof (wtlUid_of_supplied arguments (VStr uid) Ha) as Hu.
  assert (Hn : wtlUid_of arguments <> VNull) by (rewrite Hu; discriminate).
  rewrite <- Hu in Hf.
  rewrite (exec_fallback_found h d arguments el Hq Hn Hf), Hu.
  repeat split.
Qed.

Lemma fallback_success_witness :
  clicks (trace (exec Page.marking Page.doc [VStr "#missing"; VStr "uid-42"]))
    = [[0; 1]] /\
  diagnostics (trace (exec Page.marking Page.doc [VStr "#missing"; VStr "uid-42"]))
    = [ primary_lookup_failed (VStr "#missing");
        fallback_lookup_attempted (VStr "uid-42") ].
Proof.
  pose proof (fallback_success Page.marking Page.doc
                [VStr "#missing"; VStr "uid-42"] "uid-42" [0; 1]
                eq_refl eq_refl eq_refl) as (_ & Hc & Hd & _).
  exact (conj Hc Hd).
Defined.

(** C3, total failure without a fallback.  When the primary lookup finds
    nothing and no second argument was passed, the invocation emits the one
    primary-lookup-failed diagnostic, dispatches no click, makes no fallback
    lookup, and ends at the [return;] statement. *)
Theorem no_fallback_supplied (h : Host) (d : document) (arguments : list value) :
  querySelector h d (arguments_get arguments 0) = Returned None ->
  nth_error arguments 1 = None ->
  diagnostics (trace (exec h d arguments)) =
    [ primary_lookup_failed (arguments_get arguments 0) ] /\
  clicks (trace (exec h d arguments)) = [] /\
  fallback_attempted (trace (exec h d arguments)) = false /\
  result (exec h d arguments) = Return /\
  returns_normally (result (exec h d arguments)) = true.
Proof.
  intros Hq Ha.
  rewrite (exec_no_fallback h d arguments Hq (wtlUid_of_absent arguments Ha)).
  repeat split.
Qed.

Lemma no_fallback_supplied_witness :
  diagnostics (trace (exec Page.marking Page.doc [VStr "#missing"])) =
    [ primary_lookup_failed (VStr "#missing") ] /\
  clicks (trace (exec Page.marking Page.doc [VStr "#missing"])) = [].
Proof.
  pose proof (no_fallback_supplied Page.marking Page.doc [VStr "#missing"]
                eq_refl eq_refl) as (Hd & Hc & _).
  exact (conj Hd Hc).
Defined.

(** C4, total failure with a fallback.  When the primary lookup finds
    nothing, a secondary locator (a string) was passed as second argument and
    the secondary lookup finds nothing either, the invocation emits the
    primary-lookup-failed, fallback-attempted and fallback-failed
    diagnostics, in that order, dispatches no click, and runs to its end
    without raising anything. *)
Theorem fallback_failure (h : Host) (d : document) (arguments : list value)
    (uid : string) :
  querySelector h d (arguments_get arguments 0) = Returned None ->
  nth_error arguments 1 = Some (VStr uid) ->
  findElementByWtlUid h d (VStr uid) = None ->
  diagnostics (trace (exec h d arguments)) =
    [ primary_lookup_failed (arguments_get arguments 0);
      fallback_lookup_attempted (VStr uid);
      fallback_lookup_failed (VStr uid) ] /\
  clicks (trace (exec h d arguments)) = [] /\
  result (exec h d arguments) = Normal /\
  returns_normally (result (exec h d arguments)) = true.
Proof.
  intros Hq Ha Hf.
  pose proof (wtlUid_of_supplied arguments (VStr uid) Ha) as Hu.
  assert (Hn : wtlUid_of arguments <> VNull) by (rewrite Hu; discriminate).
  rewrite <- Hu in Hf.
  rewrite (exec_fallback_missing h d arguments Hq Hn Hf), Hu.
  repeat split.
Qed.

Lemma fallback_failure_witness :
  diagnostics (trace (exec Page.marking Page.bare [VStr "#missing"; VStr "uid-42"]))
    = [ primary_lookup_failed (VStr "#missing");
        fallback_lookup_attempted (VStr "uid-42");
        fallback_lookup_failed (VStr "uid-42") ] /\
  clicks (trace (exec Page.marking Page.bare [VStr "#missing"; VStr "uid-42"])) = [].
Proof.
  pose proof (fallback_failure Page.marking Page.bare
                [VStr "#missing"; VStr "uid-42"] "uid-42"
                eq_refl eq_refl eq_refl) as (Hd & Hc & _).
  exact (conj Hd Hc).
Defined.

(** C7, malformed locator.  When the primary locator is not a selector, the
    [SyntaxError] the query raises ends the invocation as it is: the script
    completes with that exception, having emitted no diagnostic, made no
    fallback lookup, dispatched no click and left the document as it was. *)
Theorem malformed_locator_propagates (h : Host) (d : document)
    (arguments : list value) :
  parse_selector h (ToString (arguments_get arguments 0)) = None ->
  result (exec h d arguments) =
    Throw (SyntaxError (ToString (arguments_get arguments 0))) /\
  diagnostics (trace (exec h d arguments)) = [] /\
  fallback_attempted (trace (exec h d arguments)) = false /\
  clicks (trace (exec h d arguments)) = [] /\
  final_document (exec h d arguments) = d.
Proof.
  intros Hp.
  assert (Hq : querySelector h d (arguments_get arguments 0) =
               Thrown (SyntaxError (ToString (arguments_get arguments 0)))).
  { unfold querySelector. now rewrite Hp. }
  rewrite (exec_primary_throws h d arguments _ Hq).
  repeat split.
Qed.

Lemma malformed_locator_propagates_witness :
  result (exec Page.marking Page.doc [VStr "#"; VStr "uid-42"]) =
    Throw (SyntaxError "#") /\
  diagnostics (trace (exec Page.marking Page.doc [VStr "#"; VStr "uid-42"])) = [].
Proof.
  pose proof (malformed_locator_propagates Page.marking Page.doc
                [VStr "#"; VStr "uid-42"] eq_refl) as (Hr & Hd & _).
  exact (conj Hr Hd).
Defined.

(** ** When the fallback is attempted *)

(** C5 as stated fails: with [null] passed as second argument the arity test
    succeeds, yet the script takes the [wtlUid === null] exit and makes no
    fallback lookup. *)
Lemma null_second_argument_skips_fallback :
  querySelector Page.marking Page.doc
    (arguments_get [VStr "#missing"; VNull] 0) = Returned None /\
  ~ (fallback_attempted
       (trace (exec Page.marking Page.doc [VStr "#missing"; VNull])) = true
     <-> second_argument_supplied [VStr "#missing"; VNull]).
Proof.
  split; [reflexivity|].
  intros [_ H].
  assert (S : second_argument_supplied [VStr "#missing"; VNull])
    by (unfold second_argument_supplied; cbn; lia).
  specialize (H S). cbn in H. discriminate.
Qed.

(** C5, amended.  When the primary lookup finds nothing, the fallback lookup
    is attempted exactly when a second argument was passed and its value is
    not [null]: the arity test fills [wtlUid], and [null], passed or left
    from the initialisation, means no fallback.  Any other value counts as
    supplied, the empty string and [undefined] included. *)
Theorem fallback_iff_non_null (h : Host) (d : document) (arguments : list value) :
  querySelector h d (arguments_get arguments 0) = Returned None ->
  (fallback_attempted (trace (exec h d arguments)) = true <->
   exists v, nth_error arguments 1 = Some v /\ v <> VNull).
Proof.
  intros Hq. rewrite <- wtlUid_of_non_null.
  destruct (value_null_dec (wtlUid_of arguments)) as [Hu|Hu].
  - rewrite (exec_no_fallback h d arguments Hq Hu). cbn.
    split; [discriminate | intros Hn; contradiction].
  - destruct (findElementByWtlUid h d (wtlUid_of arguments)) as [el|] eqn:Hf.
    + rewrite (exec_fallback_found h d arguments el Hq Hu Hf). cbn. tauto.
    + rewrite (exec_fallback_missing h d arguments Hq Hu Hf). cbn. tauto.
Qed.

Lemma fallback_iff_non_null_witness :
  fallback_attempted
    (trace (exec Page.marking Page.doc [VStr "#missing"; VStr ""])) = true /\
  ~ (exists v, nth_error [VStr "#missing"; VNull] 1 = Some v /\ v <> VNull).
Proof.
  split.
  - apply (fallback_iff_non_null Page.marking Page.doc
             [VStr "#missing"; VStr ""] eq_refl).
    exists (VStr ""). split; [reflexivity | discriminate].
  - intros Hex.
    apply (fallback_iff_non_null Page.marking Page.doc
             [VStr "#missing"; VNull] eq_refl) in Hex.
    discriminate Hex.
Defined.

(** ** The diagnostics *)

Lemma diagnostic_kinds_NoDup : NoDup diagnostic_kinds.
Proof.
  unfold diagnostic_kinds, msg_selector_not_found, msg_trying_wtl_uid,
    msg_wtl_uid_not_found.
  repeat constructor; cbn; intuition discriminate.
Qed.

Lemma emits_only_kinds (k : diagnostic_kind) : emits k -> In k diagnostic_kinds.
Proof.
  intros (h & d & arguments & v & Hin).
  pose proof (exec_shape h d arguments) as S.
  remember (exec h d arguments) as o eqn:E. clear E.
  destruct k as [l msg].
  destruct S; cbn in Hin;
    repeat match goal with
      | H : _ \/ _ |- _ => destruct H
      | H : False |- _ => destruct H
      | H : (_, _, _) = (_, _, _) |- _ => injection H as <- <- _
      end; cbn; tauto.
Qed.

Lemma kinds_emitted (k : diagnostic_kind) : In k diagnostic_kinds -> emits k.
Proof.
  intros [<- | [<- | [<- | []]]].
  - exists Page.marking, Page.bare, [VStr "#missing"], (VStr "#missing").
    cbn. tauto.
  - exists Page.marking, Page.bare, [VStr "#missing"; VStr "uid-42"], (VStr "uid-42").
    cbn. tauto.
  - exists Page.marking, Page.bare, [VStr "#missing"; VStr "uid-42"], (VStr "uid-42").
    cbn. tauto.
Qed.

(** C6 as stated fails: the diagnostic kinds the script can emit are not
    four in number. *)
Lemma not_four_diagnostic_events : ~ diagnostic_event_count 4.
Proof.
  intros (ks & Hnd & Hlen & Hks).
  assert (Hincl : incl ks diagnostic_kinds).
  { intros k Hk. apply emits_only_kinds, Hks, Hk. }
  pose proof (NoDup_incl_length Hnd Hincl) as Hle.
  rewrite Hlen in Hle. cbn in Hle. lia.
Qed.

(** C6, amended.  The script uses the console for exactly three kinds of
    diagnostic: primary lookup failed (an error), attempting the fallback
    lookup (a log), fallback lookup failed (an error).  Each of them is
    emitted by some invocation, and no invocation emits anything else. *)
Theorem three_diagnostic_events :
  diagnostic_event_count 3 /\
  forall k, emits k <-> In k diagnostic_kinds.
Proof.
  split.
  - exists diagnostic_kinds. split; [exact diagnostic_kinds_NoDup|].
    split; [reflexivity|].
    intros k. split; [apply kinds_emitted | apply emits_only_kinds].
  - intros k. split; [apply emits_only_kinds | apply kinds_emitted].
Qed.

(** ** One attempt per tier *)

(** C8.  An invocation makes at most one primary lookup, at most one
    fallback lookup and at most one click, and it does not both find an
    element with the primary lookup and make the fallback lookup. *)
Theorem single_attempt (h : Host) (d : document) (arguments : list value) :
  List.length (primary_lookups (trace (exec h d arguments))) <= 1 /\
  List.length (fallback_lookups (trace (exec h d arguments))) <= 1 /\
  List.length (clicks (trace (exec h d arguments))) <= 1 /\
  primary_found (trace (exec h d arguments))
    && fallback_attempted (trace (exec h d arguments)) = false.
Proof.
  destruct (exec_shape h d arguments); cbn; repeat split; lia.
Qed.

(** ** First match in document order *)

(** C9.  When two or more elements of the document match the primary
    locator, the one click of the invocation goes to the first of them in
    document order: no element before it in the document matches.  If that
    click leaves the document as it was, a second invocation with the same
    arguments clicks the same element. *)
Theorem first_match_determinism (h : Host) (d : document)
    (arguments : list value) (matches : document -> element -> bool)
    (e1 e2 : element) (rest : list element) :
  parse_selector h (ToString (arguments_get arguments 0)) = Some matches ->
  filter (matches d) (elements d) = e1 :: e2 :: rest ->
  clicks (trace (exec h d arguments)) = [e1] /\
  (exists before after,
      elements d = before ++ e1 :: after /\
      forallb (fun e => negb (matches d e)) before = true /\
      matches d e1 = true) /\
  (final_document (exec h d arguments) = d ->
   clicks (trace (exec h (final_document (exec h d arguments)) arguments)) = [e1]).
Proof.
  intros Hp Hm.
  assert (Hq : querySelector h d (arguments_get arguments 0) = Returned (Some e1)).
  { unfold querySelector. rewrite Hp, find_filter, Hm. reflexivity. }
  assert (Hc : clicks (trace (exec h d arguments)) = [e1]).
  { now rewrite (exec_primary_found h d arguments e1 Hq). }
  split; [exact Hc|]. split.
  - exact (filter_head_first (matches d) (elements d) e1 (e2 :: rest) Hm).
  - intros ->. exact Hc.
Qed.

Lemma first_match_determinism_witness :
  filter (has_tag "button" Page.doc) (elements Page.doc) = [[0; 0]; [0; 2]] /\
  clicks (trace (exec Page.inert Page.doc [VStr "button"])) = [[0; 0]] /\
  clicks (trace (exec Page.inert
                   (final_document (exec Page.inert Page.doc [VStr "button"]))
                   [VStr "button"])) = [[0; 0]].
Proof.
  split; [reflexivity|].
  pose proof (first_match_determinism Page.inert Page.doc [VStr "button"]
                (has_tag "button") [0; 0] [0; 2] [] eq_refl eq_refl)
    as (Hc & _ & Hagain).
  exact (conj Hc (Hagain eq_refl)).
Defined.

(** ** Frame *)

(** C10.  The document an invocation leaves is the document it started on,
    changed by [clickElement] alone, once for each click of the record and
    not otherwise.  Every lookup of the record is the page's answer on the
    document as it stands, and every clicked element is one that a lookup of
    this invocation resolved. *)
Theorem resolver_frame (h : Host) (d : document) (arguments : list value) :
  final_document (exec h d arguments) =
    fold_left (fun d' e => clickElement h e d')
              (clicks (trace (exec h d arguments))) d /\
  Forall (fresh_lookup h d) (trace (exec h d arguments)) /\
  incl (clicks (trace (exec h d arguments)))
       (resolved (trace (exec h d arguments))).
Proof.
  destruct (exec_shape h d arguments) as [e Hq|el Hq|Hq Hu|el Hq Hu Hf|Hq Hu Hf];
    cbn; (split; [reflexivity|]); split;
    try (repeat constructor; cbn; congruence);
    intros x Hx; cbn in *; tauto.
Qed.

(** ** Further properties of the script *)

Lemma wtlUid_of_second (arguments : list value) :
  wtlUid_of arguments <> VNull ->
  wtlUid_of arguments = arguments_get arguments 1.
Proof.
  destruct arguments as [|a [|b l]]; cbn; congruence.
Qed.

(** X1.  Arguments after the second are never read: an invocation with more
    than two arguments has the outcome (completion, document, record) of the
    invocation with its first two. *)
Theorem extra_arguments_ignored (h : Host) (d : document)
    (selector wtlUid : value) (more : list value) :
  exec h d (selector :: wtlUid :: more) = exec h d [selector; wtlUid].
Proof.
  destruct (exec_shape h d [selector; wtlUid])
    as [e Hq|el Hq|Hq Hu|el Hq Hu Hf|Hq Hu Hf].
  - exact (exec_primary_throws h d (selector :: wtlUid :: more) e Hq).
  - exact (exec_primary_found h d (selector :: wtlUid :: more) el Hq).
  - exact (exec_no_fallback h d (selector :: wtlUid :: more) Hq Hu).
  - exact (exec_fallback_found h d (selector :: wtlUid :: more) el Hq Hu Hf).
  - exact (exec_fallback_missing h d (selector :: wtlUid :: more) Hq Hu Hf).
Qed.

(** X2.  Passing [null] as second argument is the same as passing no second
    argument: the two invocations have the same outcome, record included. *)
Theorem null_is_absent (h : Host) (d : document) (selector : value)
    (more : list value) :
  exec h d (selector :: VNull :: more) = exec h d [selector].
Proof.
  destruct (exec_shape h d [selector])
    as [e Hq|el Hq|Hq Hu|el Hq Hu Hf|Hq Hu Hf].
  - exact (exec_primary_throws h d (selector :: VNull :: more) e Hq).
  - exact (exec_primary_found h d (selector :: VNull :: more) el Hq).
  - exact (exec_no_fallback h d (selector :: VNull :: more) Hq eq_refl).
  - now contradiction Hu.
  - now contradiction Hu.
Qed.

(** X3.  Invoked with no argument at all, the script does not fail on the
    missing selector: [arguments[0]] reads as [undefined], the primary lookup
    is the one for the selector string "undefined", and no fallback is
    attempted.  Completion, document and clicks are those of the invocation
    with the one argument "undefined". *)
Theorem no_arguments (h : Host) (d : document) :
  result (exec h d []) = result (exec h d [VStr "undefined"]) /\
  final_document (exec h d []) = final_document (exec h d [VStr "undefined"]) /\
  clicks (trace (exec h d [])) = clicks (trace (exec h d [VStr "undefined"])) /\
  fallback_attempted (trace (exec h d [])) = false.
Proof.
  unfold exec, click_element. cbn. unfold querySelector. cbn.
  destruct (parse_selector h "undefined") as [matches|]; cbn.
  - destruct (find (matches d) (elements d)) as [el|]; cbn; repeat split.
  - repeat split.
Qed.

(** X4.  An invocation ends in one of three ways, and its last act tells
    which: the click (then it is the only click and the script completed
    normally), a [console.error] (then nothing was clicked, nothing was
    raised and the document is untouched), or the exception of the primary
    lookup (then nothing was clicked).  Nothing follows a click, and an
    invocation that clicks nothing never ends silently. *)
Theorem invocation_ends (h : Host) (d : document) (arguments : list value) :
  match final_event (trace (exec h d arguments)) with
  | Some (EvClick el) =>
      clicks (trace (exec h d arguments)) = [el] /\
      result (exec h d arguments) = Normal
  | Some (EvConsole Error _ _) =>
      clicks (trace (exec h d arguments)) = [] /\
      returns_normally (result (exec h d arguments)) = true /\
      final_document (exec h d arguments) = d
  | Some (EvQuerySelector _ (Thrown e)) =>
      clicks (trace (exec h d arguments)) = [] /\
      result (exec h d arguments) = Throw e
  | _ => False
  end.
Proof.
  destruct (exec_shape h d arguments); cbn; repeat split.
Qed.

(** X5.  The script raises exactly when the primary locator is not a
    selector: a lookup that finds nothing, in either tier, never raises. *)
Theorem raises_iff_malformed (h : Host) (d : document) (arguments : list value) :
  returns_normally (result (exec h d arguments)) = false <->
  parse_selector h (ToString (arguments_get arguments 0)) = None.
Proof.
  destruct (exec_shape h d arguments) as [e Hq|el Hq|Hq Hu|el Hq Hu Hf|Hq Hu Hf];
    cbn; unfold querySelector in Hq;
    destruct (parse_selector h (ToString (arguments_get arguments 0)));
    split; congruence.
Qed.

(** X6.  The lookups are made with the arguments as they were passed: the
    primary lookup with [arguments[0]], the fallback lookup with
    [arguments[1]].  [findElementByWtlUid] is never called with [null]. *)
Theorem lookups_use_arguments (h : Host) (d : document) (arguments : list value) :
  Forall (fun q => fst q = arguments_get arguments 0)
         (primary_lookups (trace (exec h d arguments))) /\
  Forall (fun q => fst q = arguments_get arguments 1 /\ fst q <> VNull)
         (fallback_lookups (trace (exec h d arguments))).
Proof.
  destruct (exec_shape h d arguments) as [e Hq|el Hq|Hq Hu|el Hq Hu Hf|Hq Hu Hf];
    cbn; split; repeat constructor; cbn;
    solve [ now apply wtlUid_of_second | assumption ].
Qed.

(** X7.  The diagnostics of an invocation are an initial part of the
    sequence primary-lookup-failed, fallback-attempted, fallback-failed, the
    first printing [arguments[0]] and the other two the value of [wtlUid]: a
    later one is never emitted without the earlier ones, and none twice. *)
Theorem diagnostics_in_sequence (h : Host) (d : document) (arguments : list value) :
  exists n : nat,
    diagnostics (trace (exec h d arguments)) =
      firstn n (diagnostic_sequence arguments).
Proof.
  destruct (exec_shape h d arguments) as [e Hq|el Hq|Hq Hu|el Hq Hu Hf|Hq Hu Hf];
    cbn.
  - now exists 0.
  - now exists 0.
  - now exists 1.
  - now exists 2.
  - now exists 3.
Qed.
